(** * quantal-base-model: the BaseModel factory of [lib/index.js]

    A shallow embedding of the model factory and of the nine static
    operations it installs on top of bookshelf-modelbase.  The factory and
    the operations are translated from the source; the collaborators the
    source only calls (the bookshelf handle and its static methods, the
    [toJSON] of bookshelf objects, [CommonErrors.utils.bookshelfToApp])
    are the fields of an interface, so every statement holds for whatever
    they do: a static method may itself call operations of its receiver,
    and the two calls the factory makes may throw. *)

From Stdlib Require Import String List ZArith Bool Lia.
Import ListNotations.
Local Open Scope string_scope.
Local Open Scope list_scope.
Set Warnings "-register-all".

(** ** Plain data *)

(** What [toJSON] produces: data only, no behaviour. *)
Inductive Json : Type :=
| JNull
| JBool (b : bool)
| JNum (n : Z)
| JStr (s : string)
| JArr (items : list Json)
| JObj (members : list (string * Json)).

(** ** Error objects *)

(** The error classes the source names, [TypeError] for a call of a missing
    method, and [OtherError] for every other class (driver errors, ...). *)
Inductive ErrorClass : Type :=
| Bookshelf_NotFoundError
| Bookshelf_EmptyError
| Bookshelf_NoRowsDeletedError
| Bookshelf_NoRowsUpdatedError
| CommonErrors_IllegalArgumentError
| CommonErrors_NotFoundError
| CommonErrors_NoRowsDeletedError
| CommonErrors_NoRowsUpdatedError
| TypeError
| OtherError (name : string).

Record JsError : Type := mkError { err_class : ErrorClass; err_message : string }.

Definition ErrorClass_eqb (a b : ErrorClass) : bool :=
  match a, b with
  | Bookshelf_NotFoundError, Bookshelf_NotFoundError => true
  | Bookshelf_EmptyError, Bookshelf_EmptyError => true
  | Bookshelf_NoRowsDeletedError, Bookshelf_NoRowsDeletedError => true
  | Bookshelf_NoRowsUpdatedError, Bookshelf_NoRowsUpdatedError => true
  | CommonErrors_IllegalArgumentError, CommonErrors_IllegalArgumentError => true
  | CommonErrors_NotFoundError, CommonErrors_NotFoundError => true
  | CommonErrors_NoRowsDeletedError, CommonErrors_NoRowsDeletedError => true
  | CommonErrors_NoRowsUpdatedError, CommonErrors_NoRowsUpdatedError => true
  | TypeError, TypeError => true
  | OtherError n, OtherError m => String.eqb n m
  | _, _ => false
  end.

(** [err instanceof cls]; the classes are unrelated siblings below [Error]. *)
Definition instanceof (err : JsError) (cls : ErrorClass) : bool :=
  ErrorClass_eqb (err_class err) cls.

(** [new cls(message)] *)
Definition new (cls : ErrorClass) (message : string) : JsError :=
  mkError cls message.

(** The four classes of the application's own taxonomy. *)
Definition is_CommonError (cls : ErrorClass) : bool :=
  match cls with
  | CommonErrors_IllegalArgumentError | CommonErrors_NotFoundError
  | CommonErrors_NoRowsDeletedError | CommonErrors_NoRowsUpdatedError => true
  | _ => false
  end.

(** The four signals of the library that some operation catches by class. *)
Definition is_caught_signal (cls : ErrorClass) : bool :=
  match cls with
  | Bookshelf_NotFoundError | Bookshelf_EmptyError
  | Bookshelf_NoRowsDeletedError | Bookshelf_NoRowsUpdatedError => true
  | _ => false
  end.

(** The static methods of [bookshelf.Model] the operations delegate to. *)
Inductive Static : Type :=
| S_findOne | S_create | S_destroy | S_findAll
| S_findById | S_findOrCreate | S_update | S_upsert.

(** The operations the factory installs. *)
Inductive Operation : Type :=
| Op_findOne | Op_create | Op_destroy | Op_findAll | Op_findWhere
| Op_findById | Op_findOrCreate | Op_update | Op_upsert.

Section Shim.

(** [Native]: the objects of the runtime, model instances and collections.
    [Handle]: the state behind the bookshelf handle (registered plugins,
    the database, ...). *)
Context {Native Handle : Type}.

(** ** Values *)

Inductive JsValue : Type :=
| JsUndefined
| JsPlain (j : Json)
| JsNative (o : Native).

Definition JsNull : JsValue := JsPlain JNull.
Definition JsTrue : JsValue := JsPlain (JBool true).
Definition JsFalse : JsValue := JsPlain (JBool false).

(** ToBoolean: what [!v] negates.  Objects, arrays included, are truthy. *)
Definition truthy (v : JsValue) : bool :=
  match v with
  | JsUndefined => false
  | JsPlain JNull => false
  | JsPlain (JBool b) => b
  | JsPlain (JNum n) => negb (n =? 0)%Z
  | JsPlain (JStr s) => negb (s =? "")
  | JsPlain (JArr _) => true
  | JsPlain (JObj _) => true
  | JsNative _ => true
  end.

(** The value of the [i]th formal parameter: [undefined] past the end. *)
Definition arg (arguments : list JsValue) (i : nat) : JsValue :=
  nth i arguments JsUndefined.

(** A formal parameter with a default, [p = d]: the default replaces a
    missing or [undefined] argument and nothing else. *)
Definition arg_default (arguments : list JsValue) (i : nat) (d : JsValue) : JsValue :=
  match arg arguments i with
  | JsUndefined => d
  | v => v
  end.

(** ** Promises *)

Inductive Promise : Type :=
| Pending
| Fulfilled (v : JsValue)
| Rejected (err : JsError).

(** How a handler ends: it returns a value, returns a promise, or throws. *)
Inductive HandlerResult : Type :=
| Return (v : JsValue)
| ReturnPromise (p : Promise)
| Throw (err : JsError).

Definition settle (r : HandlerResult) : Promise :=
  match r with
  | Return v => Fulfilled v
  | ReturnPromise p => p
  | Throw err => Rejected err
  end.

(** [Promise.reject(err)] *)
Definition Promise_reject (err : JsError) : Promise := Rejected err.

(** [p.then(onFulfilled)] *)
Definition then_ (p : Promise) (onFulfilled : JsValue -> HandlerResult) : Promise :=
  match p with
  | Fulfilled v => settle (onFulfilled v)
  | _ => p
  end.

(** [p.catch(cls, handler)]: the handler runs on instances of [cls] only. *)
Definition catch_class (p : Promise) (cls : ErrorClass)
    (handler : JsError -> HandlerResult) : Promise :=
  match p with
  | Rejected err => if instanceof err cls then settle (handler err) else p
  | _ => p
  end.

(** [p.catch(handler)] *)
Definition catch_ (p : Promise) (handler : JsError -> HandlerResult) : Promise :=
  match p with
  | Rejected err => settle (handler err)
  | _ => p
  end.

Notation "p '.then' f" := (then_ p f) (at level 45, left associativity, only parsing).
Notation "p '.catch[' cls ']' h" := (catch_class p cls h)
  (at level 45, left associativity, only parsing).
Notation "p '.catch' h" := (catch_ p h) (at level 45, left associativity, only parsing).

(** ** The model definition and the world *)

(** What [ModelBase.extend] receives as prototype properties. *)
Record ModelDefinition : Type := { validate : JsValue }.

(** An operation runs against its receiver and the shared handle. *)
Record World : Type := { this : ModelDefinition; runtime : Handle }.

(** ** Collaborators *)

Class Collaborators : Type := {
  (** [require('bookshelf-modelbase')(bookshelf, params)]: what the call
      throws, if it throws, and the handle after it *)
  modelbase : JsValue -> JsValue -> Handle -> option JsError * Handle;
  (** [bookshelf.plugin(require('bookshelf-modelbase').pluggable)],
      likewise *)
  plugin_pluggable : JsValue -> Handle -> option JsError * Handle;
  (** [bookshelf.Model.prototype.constructor.<static>.apply(this, arguments)] *)
  apply_static : Static -> list JsValue -> World -> Promise * World;
  (** [model.toJSON()] on an object of the runtime *)
  toJSON : Native -> Json;
  (** [CommonErrors.utils.bookshelfToApp(err)] *)
  bookshelfToApp : JsError -> JsError
}.

Context {env : Collaborators}.

(** ** Effects: state passing over the world *)

Definition M (A : Type) : Type := World -> A * World.
Definition ret {A} (a : A) : M A := fun w => (a, w).
Definition bind {A B} (m : M A) (k : A -> M B) : M B :=
  fun w => let (a, w') := m w in k a w'.
Notation "x <- m ;; k" := (bind m (fun x => k))
  (at level 61, m at next level, right associativity).

(** [model.toJSON()]: a method of the runtime's objects; anything else that
    got past [!model] has no such method and the call throws. *)
Definition call_toJSON (model : JsValue) : HandlerResult :=
  match model with
  | JsNative o => Return (JsPlain (toJSON o))
  | _ => Throw (new TypeError "model.toJSON is not a function")
  end.

(** The [then] handler every operation installs. *)
Definition convert (bConvertResultToJson : JsValue) (model : JsValue) : HandlerResult :=
  if negb (truthy bConvertResultToJson) then Return model
  else if negb (truthy model) then Return JsNull
  else call_toJSON model.

Definition reject_NotFoundError (_ : JsError) : HandlerResult :=
  ReturnPromise (Promise_reject (new CommonErrors_NotFoundError "NotFoundError")).
Definition reject_NoRowsDeletedError (_ : JsError) : HandlerResult :=
  ReturnPromise (Promise_reject (new CommonErrors_NoRowsDeletedError "NoRowsDeletedError")).
Definition reject_NoRowsUpdatedError (_ : JsError) : HandlerResult :=
  ReturnPromise (Promise_reject (new CommonErrors_NoRowsUpdatedError "NoRowsUpdatedError")).
Definition reject_translated (err : JsError) : HandlerResult :=
  ReturnPromise (Promise_reject (bookshelfToApp err)).

(** ** The nine operations *)

Definition findOne (arguments : list JsValue) : M Promise :=
  let bConvertResultToJson := arg_default arguments 2 JsTrue in
  p <- apply_static S_findOne arguments ;;
  ret (p .then (convert bConvertResultToJson)
         .catch[Bookshelf_NotFoundError] reject_NotFoundError
         .catch[Bookshelf_EmptyError] reject_NotFoundError
         .catch reject_translated).

Definition create (arguments : list JsValue) : M Promise :=
  let bConvertResultToJson := arg_default arguments 2 JsTrue in
  p <- apply_static S_create arguments ;;
  ret (p .then (convert bConvertResultToJson)
         .catch[Bookshelf_NotFoundError] reject_NotFoundError
         .catch[Bookshelf_EmptyError] reject_NotFoundError
         .catch reject_translated).

Definition destroy (arguments : list JsValue) : M Promise :=
  let bConvertResultToJson := arg_default arguments 1 JsTrue in
  p <- apply_static S_destroy arguments ;;
  ret (p .then (convert bConvertResultToJson)
         .catch[Bookshelf_NotFoundError] reject_NotFoundError
         .catch[Bookshelf_NoRowsDeletedError] reject_NoRowsDeletedError
         .catch reject_translated).

Definition findAll (arguments : list JsValue) : M Promise :=
  let bConvertResultToJson := arg_default arguments 2 JsTrue in
  p <- apply_static S_findAll arguments ;;
  ret (p .then (convert bConvertResultToJson)
         .catch[Bookshelf_NotFoundError] reject_NotFoundError
         .catch[Bookshelf_EmptyError] reject_NotFoundError
         .catch reject_translated).

Definition findWhere (arguments : list JsValue) : M Promise :=
  let filter := arg arguments 0 in
  let options := arg arguments 1 in
  let bConvertResultToJson := arg_default arguments 2 JsTrue in
  findAll [filter; options; bConvertResultToJson].

Definition findById (arguments : list JsValue) : M Promise :=
  let bConvertResultToJson := arg_default arguments 2 JsTrue in
  p <- apply_static S_findById arguments ;;
  ret (p .then (convert bConvertResultToJson)
         .catch[Bookshelf_NotFoundError] reject_NotFoundError
         .catch[Bookshelf_EmptyError] reject_NotFoundError
         .catch reject_translated).

Definition findOrCreate (arguments : list JsValue) : M Promise :=
  let bConvertResultToJson := arg_default arguments 2 JsTrue in
  p <- apply_static S_findOrCreate arguments ;;
  ret (p .then (convert bConvertResultToJson)
         .catch[Bookshelf_NotFoundError] reject_NotFoundError
         .catch[Bookshelf_EmptyError] reject_NotFoundError
         .catch reject_translated).

Definition update (arguments : list JsValue) : M Promise :=
  let bConvertResultToJson := arg_default arguments 2 JsTrue in
  p <- apply_static S_update arguments ;;
  ret (p .then (convert bConvertResultToJson)
         .catch[Bookshelf_NotFoundError] reject_NotFoundError
         .catch[Bookshelf_EmptyError] reject_NotFoundError
         .catch[Bookshelf_NoRowsUpdatedError] reject_NoRowsUpdatedError
         .catch reject_translated).

Definition upsert (arguments : list JsValue) : M Promise :=
  let bConvertResultToJson := arg_default arguments 3 JsTrue in
  p <- apply_static S_upsert arguments ;;
  ret (p .then (convert bConvertResultToJson)
         .catch[Bookshelf_NotFoundError] reject_NotFoundError
         .catch[Bookshelf_EmptyError] reject_NotFoundError
         .catch[Bookshelf_NoRowsUpdatedError] reject_NoRowsUpdatedError
         .catch reject_translated).

(** Dispatch by name, as a caller's [Model.<operation>(...)] does. *)
Definition operation (op : Operation) : list JsValue -> M Promise :=
  match op with
  | Op_findOne => findOne
  | Op_create => create
  | Op_destroy => destroy
  | Op_findAll => findAll
  | Op_findWhere => findWhere
  | Op_findById => findById
  | Op_findOrCreate => findOrCreate
  | Op_update => update
  | Op_upsert => upsert
  end.

(** A caller issuing one call after the other. *)
Fixpoint run_calls (calls : list (Operation * list JsValue)) (w : World) : World :=
  match calls with
  | [] => w
  | (op, arguments) :: rest => run_calls rest (snd (operation op arguments w))
  end.

(** ** The factory *)

Inductive Completion (A : Type) : Type :=
| Normal (a : A)
| Thrown (err : JsError).

Definition BaseModel (bookshelf params validations : JsValue) (h : Handle)
  : Completion ModelDefinition * Handle :=
  if negb (truthy bookshelf) then
    (Thrown _ (new CommonErrors_IllegalArgumentError
                 "An initialised instance of bookshelf is required"), h)
  else
    let (thrown, h) := modelbase bookshelf params h in
    match thrown with
    | Some err => (Thrown _ err, h)
    | None =>
        let (thrown, h) := plugin_pluggable bookshelf h in
        match thrown with
        | Some err => (Thrown _ err, h)
        | None => (Normal _ {| validate := validations |}, h)
        end
    end.

(** [bookshelf] is "an initialised instance of bookshelf": neither call of
    the factory throws on it. *)
Definition initialised (bookshelf : JsValue) : Prop :=
  forall params h,
    fst (modelbase bookshelf params h) = None /\
    fst (plugin_pluggable bookshelf h) = None.

(** The factory called [n] times in a row on one handle. *)
Fixpoint BaseModel_times (n : nat) (bookshelf params validations : JsValue)
    (h : Handle) : Handle :=
  match n with
  | O => h
  | S k => BaseModel_times k bookshelf params validations
             (snd (BaseModel bookshelf params validations h))
  end.

(** ** Reading the source's signatures *)

(** The static method an operation ends up applying. *)
Definition target (op : Operation) : Static :=
  match op with
  | Op_findOne => S_findOne
  | Op_create => S_create
  | Op_destroy => S_destroy
  | Op_findAll | Op_findWhere => S_findAll
  | Op_findById => S_findById
  | Op_findOrCreate => S_findOrCreate
  | Op_update => S_update
  | Op_upsert => S_upsert
  end.

(** The position of [bConvertResultToJson] among the formal parameters. *)
Definition flag_index (op : Operation) : nat :=
  match op with
  | Op_destroy => 1
  | Op_upsert => 3
  | _ => 2
  end.

Definition flag_of (op : Operation) (arguments : list JsValue) : JsValue :=
  arg_default arguments (flag_index op) JsTrue.

(** The argument list the static method is applied to: [arguments] itself,
    except that [findWhere] calls [findAll] on its three formals. *)
Definition forwarded (op : Operation) (arguments : list JsValue) : list JsValue :=
  match op with
  | Op_findWhere =>
      [arg arguments 0; arg arguments 1; arg_default arguments 2 JsTrue]
  | _ => arguments
  end.

(** What the library answers to an operation called in world [w]. *)
Definition delegate (op : Operation) (arguments : list JsValue) (w : World)
  : Promise * World :=
  apply_static (target op) (forwarded op arguments) w.

(** The translation leaves the application's own errors alone. *)
Definition forwards_CommonErrors : Prop :=
  forall err, is_CommonError (err_class err) = true -> bookshelfToApp err = err.

(** [p] is the rejection made of a caught signal: the translation of
    [new cls(message)], which is that very error wherever the translation
    leaves the application's errors alone. *)
Definition resignalled_as (p : Promise) (cls : ErrorClass) (message : string)
  : Prop :=
  p = Rejected (bookshelfToApp (new cls message)) /\
  (forwards_CommonErrors -> p = Rejected (new cls message)).

End Shim.

Arguments JsValue : clear implicits.
Arguments Promise : clear implicits.
Arguments HandlerResult : clear implicits.
Arguments ModelDefinition : clear implicits.
Arguments World : clear implicits.
Arguments Collaborators : clear implicits.
Arguments forwards_CommonErrors {Native Handle} env.
Arguments initialised {Native Handle} env bookshelf.
Arguments resignalled_as {Native Handle} env p cls message.

(** ** The earlier variant of the file

    The second text of [lib/index.js]: the factory takes no [params], there
    is no [findWhere], and [findAll] and [upsert] declare one formal less,
    which moves their flag one place to the left. *)

Module Legacy.

Section Shim.

Context {Native Handle : Type} {env : Collaborators Native Handle}.

Notation "p '.then' f" := (then_ p f) (at level 45, left associativity, only parsing).
Notation "p '.catch[' cls ']' h" := (catch_class p cls h)
  (at level 45, left associativity, only parsing).
Notation "p '.catch' h" := (catch_ p h) (at level 45, left associativity, only parsing).
Notation "x <- m ;; k" := (bind m (fun x => k))
  (at level 61, m at next level, right associativity).

Definition findOne (arguments : list (JsValue Native)) : M (Promise Native) :=
  let bConvertResultToJson := arg_default arguments 2 JsTrue in
  p <- apply_static S_findOne arguments ;;
  ret (p .then (convert bConvertResultToJson)
         .catch[Bookshelf_NotFoundError] reject_NotFoundError
         .catch[Bookshelf_EmptyError] reject_NotFoundError
         .catch reject_translated).

Definition create (arguments : list (JsValue Native)) : M (Promise Native) :=
  let bConvertResultToJson := arg_default arguments 2 JsTrue in
  p <- apply_static S_create arguments ;;
  ret (p .then (convert bConvertResultToJson)
         .catch[Bookshelf_NotFoundError] reject_NotFoundError
         .catch[Bookshelf_EmptyError] reject_NotFoundError
         .catch reject_translated).

Definition destroy (arguments : list (JsValue Native)) : M (Promise Native) :=
  let bConvertResultToJson := arg_default arguments 1 JsTrue in
  p <- apply_static S_destroy arguments ;;
  ret (p .then (convert bConvertResultToJson)
         .catch[Bookshelf_NotFoundError] reject_NotFoundError
         .catch[Bookshelf_NoRowsDeletedError] reject_NoRowsDeletedError
         .catch reject_translated).

(** [findAll (options, bConvertResultToJson = true)] *)
Definition findAll (arguments : list (JsValue Native)) : M (Promise Native) :=
  let bConvertResultToJson := arg_default arguments 1 JsTrue in
  p <- apply_static S_findAll arguments ;;
  ret (p .then (convert bConvertResultToJson)
         .catch[Bookshelf_NotFoundError] reject_NotFoundError
         .catch[Bookshelf_EmptyError] reject_NotFoundError
         .catch reject_translated).

Definition findById (arguments : list (JsValue Native)) : M (Promise Native) :=
  let bConvertResultToJson := arg_default arguments 2 JsTrue in
  p <- apply_static S_findById arguments ;;
  ret (p .then (convert bConvertResultToJson)
         .catch[Bookshelf_NotFoundError] reject_NotFoundError
         .catch[Bookshelf_EmptyError] reject_NotFoundError
         .catch reject_translated).

Definition findOrCreate (arguments : list (JsValue Native)) : M (Promise Native) :=
  let bConvertResultToJson := arg_default arguments 2 JsTrue in
  p <- apply_static S_findOrCreate arguments ;;
  ret (p .then (convert bConvertResultToJson)
         .catch[Bookshelf_NotFoundError] reject_NotFoundError
         .catch[Bookshelf_EmptyError] reject_NotFoundError
         .catch reject_translated).

Definition update (arguments : list (JsValue Native)) : M (Promise Native) :=
  let bConvertResultToJson := arg_default arguments 2 JsTrue in
  p <- apply_static S_update arguments ;;
  ret (p .then (convert bConvertResultToJson)
         .catch[Bookshelf_NotFoundError] reject_NotFoundError
         .catch[Bookshelf_EmptyError] reject_NotFoundError
         .catch[Bookshelf_NoRowsUpdatedError] reject_NoRowsUpdatedError
         .catch reject_translated).

(** [upsert (selectData, options, bConvertResultToJson = true)] *)
Definition upsert (arguments : list (JsValue Native)) : M (Promise Native) :=
  let bConvertResultToJson := arg_default arguments 2 JsTrue in
  p <- apply_static S_upsert arguments ;;
  ret (p .then (convert bConvertResultToJson)
         .catch[Bookshelf_NotFoundError] reject_NotFoundError
         .catch[Bookshelf_EmptyError] reject_NotFoundError
         .catch[Bookshelf_NoRowsUpdatedError] reject_NoRowsUpdatedError
         .catch reject_translated).

(** [BaseModel (bookshelf, validations)]: the extension is required on the
    handle alone. *)
Definition BaseModel (bookshelf validations : JsValue Native) (h : Handle)
  : Completion (ModelDefinition Native) * Handle :=
  if negb (truthy bookshelf) then
    (Thrown _ (new CommonErrors_IllegalArgumentError
                 "An initialised instance of bookshelf is required"), h)
  else
    let (thrown, h) := modelbase bookshelf JsUndefined h in
    match thrown with
    | Some err => (Thrown _ err, h)
    | None =>
        let (thrown, h) := plugin_pluggable bookshelf h in
        match thrown with
        | Some err => (Thrown _ err, h)
        | None => (Normal _ {| validate := validations |}, h)
        end
    end.

End Shim.

End Legacy.

(** ** A handle that keeps a record of the factory's calls *)

Section Recording.

Context {Native Handle : Type}.

Inductive Event : Type :=
| Required_modelbase (bookshelf params : JsValue Native)
| Plugged (bookshelf : JsValue Native).

(** A handle together with the calls the factory made on it so far,
    oldest first. *)
Definition Recorded : Type := (Handle * list Event)%type.

Definition forget (w : World Native Recorded) : World Native Handle :=
  {| this := this w; runtime := fst (runtime w) |}.

(** Any collaborators, observed: they answer as before, and the two calls
    of the factory are appended to the record when they are made, whether
    they return or throw.  The static methods run as before and leave the
    record alone. *)
Definition recording (env : Collaborators Native Handle)
  : Collaborators Native Recorded :=
  {| modelbase b p h :=
       let (thrown, h') := modelbase b p (fst h) in
       (thrown, (h', snd h ++ [Required_modelbase b p]));
     plugin_pluggable b h :=
       let (thrown, h') := plugin_pluggable b (fst h) in
       (thrown, (h', snd h ++ [Plugged b]));
     apply_static s arguments w :=
       let (p, w') := apply_static s arguments (forget w) in
       (p, {| this := this w'; runtime := (runtime w', snd (runtime w)) |});
     toJSON := toJSON;
     bookshelfToApp := bookshelfToApp |}.

Definition is_Plugged (e : Event) : bool :=
  match e with
  | Plugged _ => true
  | _ => false
  end.

(** How many times the extension was installed. *)
Definition installs (h : Recorded) : nat := length (filter is_Plugged (snd h)).

End Recording.

Arguments Event : clear implicits.
Arguments Recorded : clear implicits.

(** ** A small runtime to run the operations on *)

Module Scripted.

(** A model instance: its attributes and something only the runtime uses. *)
Record Row : Type := { tableName : string; attributes : list (string * Json) }.

(** The handle is the script of the library's answers. *)
Definition Script : Type := Static -> list (JsValue Row) -> Promise Row.

(** A translation that knows one driver error and forwards the rest. *)
Definition translate (err : JsError) : JsError :=
  match err_class err with
  | OtherError "UniqueViolationError" =>
      new (OtherError "AlreadyExistsError") (err_message err)
  | _ => err
  end.

(** What the stand-in takes for a bookshelf instance: an object with a
    [Model] member. *)
Definition has_Model (bookshelf : JsValue Row) : bool :=
  match bookshelf with
  | JsPlain (JObj members) =>
      existsb (fun member => fst member =? "Model") members
  | _ => false
  end.

(** [bookshelf.Model.extend] on a value without a [Model]. *)
Definition no_Model : JsError :=
  new TypeError "Cannot read property 'extend' of undefined".

Definition scripted : Collaborators Row Script :=
  {| modelbase b _ h := (if has_Model b then None else Some no_Model, h);
     plugin_pluggable _ h := (None, h);
     apply_static s arguments w := (runtime w s arguments, w);
     toJSON row := JObj (attributes row);
     bookshelfToApp := translate |}.

(** A library whose [findById] is written against its receiver, as
    bookshelf-modelbase's is,
    [findById (id, options) { return this.findOne({ id: id }, options) }]:
    on a model built by the factory, [this.findOne] is the operation
    [findOne] above. *)
Definition id_query (id : JsValue Row) : JsValue Row :=
  match id with
  | JsPlain j => JsPlain (JObj [("id", j)])
  | _ => JsPlain (JObj [])
  end.

Definition calling_back : Collaborators Row Script :=
  {| modelbase := modelbase (Collaborators := scripted);
     plugin_pluggable := plugin_pluggable (Collaborators := scripted);
     apply_static s arguments w :=
       match s with
       | S_findById =>
           findOne (env := scripted)
             [id_query (arg arguments 0); arg arguments 1] w
       | _ => apply_static (Collaborators := scripted) s arguments w
       end;
     toJSON := toJSON (Collaborators := scripted);
     bookshelfToApp := translate |}.

(** A library that answers with the number of arguments it was given. *)
Definition by_arity : Script :=
  fun _ arguments => Fulfilled (JsPlain (JNum (Z.of_nat (length arguments)))).

Definition always (p : Promise Row) : Script := fun _ _ => p.

Definition users : Row :=
  {| tableName := "users"; attributes := [("id", JNum 1); ("name", JStr "a")] |}.

Definition model : ModelDefinition Row := {| validate := JsUndefined |}.

Definition world (answers : Script) : World Row Script :=
  {| this := model; runtime := answers |}.

(** The library's signals, with the messages bookshelf gives them. *)
Definition NotFound : JsError := new Bookshelf_NotFoundError "EmptyResponse".
Definition Empty : JsError := new Bookshelf_EmptyError "EmptyResponse".
Definition NoRowsDeleted : JsError :=
  new Bookshelf_NoRowsDeletedError "No Rows Deleted".
Definition NoRowsUpdated : JsError :=
  new Bookshelf_NoRowsUpdatedError "No Rows Updated".
Definition ConnectionRefused : JsError :=
  new (OtherError "Error") "connect ECONNREFUSED 127.0.0.1:5432".

Definition options : JsValue Row := JsPlain (JObj [("id", JNum 1)]).
Definition filter : JsValue Row := JsPlain (JObj [("name", JStr "a")]).
Definition handle : JsValue Row :=
  JsPlain (JObj [("VERSION", JStr "0.10.3"); ("Model", JObj [])]).

End Scripted.

(** * Properties *)

Section Properties.

Context {Native Handle : Type} {env : Collaborators Native Handle}.

Implicit Types (op : Operation) (arguments : list (JsValue Native)).
Implicit Types (w : World Native Handle) (v : JsValue Native) (err : JsError).

(** ** The shape every operation has *)

Lemma arg_default_findWhere arguments :
  arg_default [arg arguments 0; arg arguments 1; arg_default arguments 2 JsTrue]
    2 JsTrue = arg_default arguments 2 JsTrue.
Proof.
  unfold arg_default at 1. simpl.
  unfold arg_default. destruct (arg arguments 2); reflexivity.
Qed.

(** Unfold an operation down to the handlers on the delegate's promise. *)
Ltac expose op :=
  destruct op;
  unfold operation, findWhere, findOne, create, destroy, findAll, findById,
    findOrCreate, update, upsert, delegate, flag_of, bind, ret in *;
  simpl target in *; simpl forwarded in *; simpl flag_index in *;
  try rewrite arg_default_findWhere in *;
  match goal with
  | |- context [apply_static ?s ?a ?w] =>
      destruct (apply_static s a w) as [p w'] eqn:Hcall
  end;
  simpl fst in *; simpl snd in *.

(** An operation touches the world through its one delegate call only. *)
Lemma operation_world op arguments w :
  snd (operation op arguments w) = snd (delegate op arguments w).
Proof. expose op; reflexivity. Qed.

Lemma operation_pending op arguments w :
  fst (delegate op arguments w) = Pending ->
  fst (operation op arguments w) = Pending.
Proof. expose op; intros ->; reflexivity. Qed.

Lemma convert_settles flag v :
  (exists v', settle (convert flag v) = Fulfilled v') \/
  settle (convert flag v) = Rejected (new TypeError "model.toJSON is not a function").
Proof.
  unfold convert.
  destruct (negb (truthy flag)); [left; eexists; reflexivity|].
  destruct (negb (truthy v)); [left; eexists; reflexivity|].
  destruct v; simpl; eauto.
Qed.

(** On a fulfilled delegate only the [then] handler runs; should it throw,
    the last [catch] translates what it threw. *)
Lemma operation_fulfilled op arguments w v :
  fst (delegate op arguments w) = Fulfilled v ->
  fst (operation op arguments w) =
    catch_ (settle (convert (flag_of op arguments) v)) reject_translated.
Proof.
  expose op; intros ->; simpl then_;
    match goal with
    | |- context [settle (convert ?f ?x)] =>
        destruct (convert_settles f x) as [[v' ->] | ->]
    end; reflexivity.
Qed.

Lemma operation_rejected_other op arguments w err :
  fst (delegate op arguments w) = Rejected err ->
  is_caught_signal (err_class err) = false ->
  fst (operation op arguments w) = Rejected (bookshelfToApp err).
Proof.
  destruct err as [cls msg]. simpl.
  expose op; intros -> Hcls; destruct cls; try discriminate Hcls; reflexivity.
Qed.

Lemma operation_rejected_NotFoundError op arguments w err :
  fst (delegate op arguments w) = Rejected err ->
  err_class err = Bookshelf_NotFoundError ->
  fst (operation op arguments w) =
    Rejected (bookshelfToApp (new CommonErrors_NotFoundError "NotFoundError")).
Proof.
  destruct err as [cls msg]. simpl.
  expose op; intros -> ->; reflexivity.
Qed.

Lemma operation_rejected_EmptyError op arguments w err :
  op <> Op_destroy ->
  fst (delegate op arguments w) = Rejected err ->
  err_class err = Bookshelf_EmptyError ->
  fst (operation op arguments w) =
    Rejected (bookshelfToApp (new CommonErrors_NotFoundError "NotFoundError")).
Proof.
  destruct err as [cls msg]. simpl. intros Hop.
  expose op; try congruence; intros -> ->; reflexivity.
Qed.

Lemma destroy_rejected_NoRowsDeletedError arguments w err :
  fst (delegate Op_destroy arguments w) = Rejected err ->
  err_class err = Bookshelf_NoRowsDeletedError ->
  fst (operation Op_destroy arguments w) =
    Rejected (bookshelfToApp (new CommonErrors_NoRowsDeletedError "NoRowsDeletedError")).
Proof.
  destruct err as [cls msg]. simpl.
  unfold operation, destroy, delegate, bind, ret. simpl target. simpl forwarded.
  destruct (apply_static S_destroy arguments w) as [p w']. simpl.
  intros -> ->. reflexivity.
Qed.

Lemma operation_rejected_NoRowsUpdatedError op arguments w err :
  op = Op_update \/ op = Op_upsert ->
  fst (delegate op arguments w) = Rejected err ->
  err_class err = Bookshelf_NoRowsUpdatedError ->
  fst (operation op arguments w) =
    Rejected (bookshelfToApp (new CommonErrors_NoRowsUpdatedError "NoRowsUpdatedError")).
Proof.
  destruct err as [cls msg]. simpl. intros Hop.
  expose op; try (destruct Hop; discriminate); intros -> ->; reflexivity.
Qed.

(** Whatever the delegate rejects with, the operation rejects. *)
Lemma operation_rejected op arguments w err :
  fst (delegate op arguments w) = Rejected err ->
  exists err', fst (operation op arguments w) = Rejected err'.
Proof.
  destruct err as [cls msg].
  expose op; intros ->; destruct cls; simpl; eexists; reflexivity.
Qed.

(** ** C1 *)

(** C1 (fails on [destroy]): when the library's [destroy] rejects with its
    empty-result signal, no [catch] of the operation names that class; the
    signal reaches the last handler and the operation rejects with whatever
    [bookshelfToApp] makes of the library's own error, where every other
    operation rejects with the translation of a fresh
    [NotFoundError('NotFoundError')]. *)
Theorem destroy_EmptyError_not_resignalled arguments w err :
  fst (delegate Op_destroy arguments w) = Rejected err ->
  err_class err = Bookshelf_EmptyError ->
  fst (operation Op_destroy arguments w) = Rejected (bookshelfToApp err) /\
  (forall op, op <> Op_destroy ->
     fst (delegate op arguments w) = Rejected err ->
     fst (operation op arguments w) =
       Rejected (bookshelfToApp (new CommonErrors_NotFoundError "NotFoundError"))).
Proof.
  intros Hrej Hcls. split.
  - destruct err as [cls msg]. simpl in Hcls. subst cls. revert Hrej.
    unfold operation, destroy, delegate, bind, ret. simpl target. simpl forwarded.
    destruct (apply_static S_destroy arguments w) as [p w']. simpl.
    intros ->. reflexivity.
  - intros op Hop Hrej'. now apply operation_rejected_EmptyError with err.
Qed.

(** ** C2 *)

Lemma flag_of_arg op arguments :
  flag_of op arguments =
    match arg arguments (flag_index op) with
    | JsUndefined => JsTrue
    | flag => flag
    end.
Proof. reflexivity. Qed.

(** C2 (fails where the library hands back plain data): when the delegate
    fulfils with a truthy value that is plain data already, as a static
    method does that got its result from an operation of its receiver, an
    operation called with the flag left out, [undefined] or truthy does not
    return that data: [model.toJSON()] throws and the operation rejects
    with the translation of the [TypeError].  Only with a falsy flag does
    the caller get the data. *)
Theorem conversion_of_plain_result op arguments w (j : Json) :
  fst (delegate op arguments w) = Fulfilled (JsPlain j) ->
  truthy (JsPlain j : JsValue Native) = true ->
  (arg arguments (flag_index op) = JsUndefined \/
   truthy (arg arguments (flag_index op)) = true ->
     fst (operation op arguments w) =
       Rejected (bookshelfToApp (new TypeError "model.toJSON is not a function"))) /\
  (arg arguments (flag_index op) <> JsUndefined ->
   truthy (arg arguments (flag_index op)) = false ->
     fst (operation op arguments w) = Fulfilled (JsPlain j)).
Proof.
  intros Hv Htruthy. rewrite (operation_fulfilled _ _ _ _ Hv).
  unfold convert. rewrite flag_of_arg. split.
  - intros Hflag.
    assert (Hon : truthy match arg arguments (flag_index op) with
                         | JsUndefined => JsTrue
                         | flag => flag
                         end = true).
    { destruct Hflag as [-> | Hflag]; [reflexivity|].
      destruct (arg arguments (flag_index op)); [discriminate | |];
        exact Hflag. }
    rewrite Hon, Htruthy. reflexivity.
  - intros Hdef Hflag.
    destruct (arg arguments (flag_index op)) as [|flag|o] eqn:Harg;
      [congruence | |]; rewrite Hflag; reflexivity.
Qed.

(** ** C3 *)


(** ** C4 *)

(** C4: with a translation that leaves the application's errors alone,
    [destroy] rejects with [NoRowsDeletedError] when the library signals
    that no row was deleted, and [update] and [upsert] reject with
    [NoRowsUpdatedError] when it signals that no row was updated. *)
Theorem no_rows_signals arguments w err :
  forwards_CommonErrors env ->
  (fst (delegate Op_destroy arguments w) = Rejected err ->
   err_class err = Bookshelf_NoRowsDeletedError ->
   fst (operation Op_destroy arguments w) =
     Rejected (new CommonErrors_NoRowsDeletedError "NoRowsDeletedError")) /\
  (forall op, op = Op_update \/ op = Op_upsert ->
   fst (delegate op arguments w) = Rejected err ->
   err_class err = Bookshelf_NoRowsUpdatedError ->
   fst (operation op arguments w) =
     Rejected (new CommonErrors_NoRowsUpdatedError "NoRowsUpdatedError")).
Proof.
  intros Hfwd. split.
  - intros Hrej Hcls.
    rewrite (destroy_rejected_NoRowsDeletedError _ _ _ Hrej Hcls).
    now rewrite Hfwd.
  - intros op Hop Hrej Hcls.
    rewrite (operation_rejected_NoRowsUpdatedError _ _ _ _ Hop Hrej Hcls).
    now rewrite Hfwd.
Qed.

(** ** C5 *)

(** C5: called on a filter, an options bag and a boolean flag, [findWhere]
    is [findAll]: same promise, same world. *)
Theorem findWhere_is_findAll v_filter v_options (flag : bool) w :
  findWhere [v_filter; v_options; JsPlain (JBool flag)] w =
  findAll [v_filter; v_options; JsPlain (JBool flag)] w.
Proof. reflexivity. Qed.

(** ** C6 *)

(** C6: a rejection of the delegate with an error of none of the four
    caught classes makes the operation reject with [bookshelfToApp] of that
    error, hence with the error itself where the translation forwards it;
    a rejection is never turned into a fulfilment, and the world is the one
    the single delegate call left. *)
Theorem other_errors_translated op arguments w err :
  fst (delegate op arguments w) = Rejected err ->
  (is_caught_signal (err_class err) = false ->
     fst (operation op arguments w) = Rejected (bookshelfToApp err)) /\
  (is_caught_signal (err_class err) = false -> bookshelfToApp err = err ->
     fst (operation op arguments w) = Rejected err) /\
  (exists err', fst (operation op arguments w) = Rejected err') /\
  snd (operation op arguments w) = snd (delegate op arguments w).
Proof.
  intros Hrej. repeat split.
  - now apply operation_rejected_other.
  - intros Hcls Hid. rewrite (operation_rejected_other _ _ _ _ Hrej Hcls).
    now rewrite Hid.
  - now apply operation_rejected with err.
  - apply operation_world.
Qed.

(** ** C9 *)

(** An operation is a function of what its delegate call gives back. *)
Lemma operation_through_delegate op arguments w w' :
  delegate op arguments w = delegate op arguments w' ->
  operation op arguments w = operation op arguments w'.
Proof.
  destruct op;
    unfold operation, findWhere, findOne, create, destroy, findAll, findById,
      findOrCreate, update, upsert, delegate, bind, ret;
    simpl target; simpl forwarded; intros ->; reflexivity.
Qed.

(** C9: provided the runtime's static methods leave the receiver as it is,
    so does every sequence of operation calls: the model definition, its
    validation schema included, is the same afterwards; and an operation
    sees the world through its delegate call only. *)
Theorem definition_unchanged
    (calls : list (Operation * list (JsValue Native))) w :
  (forall s arguments w0, this (snd (apply_static s arguments w0)) = this w0) ->
  this (run_calls calls w) = this w /\
  validate (this (run_calls calls w)) = validate (this w) /\
  (forall op arguments w1 w2,
     delegate op arguments w1 = delegate op arguments w2 ->
     operation op arguments w1 = operation op arguments w2).
Proof.
  intros Hframe.
  assert (Hthis : forall w0, this (run_calls calls w0) = this w0).
  { induction calls as [|[op arguments] rest IH]; intros w0; simpl.
    - reflexivity.
    - rewrite IH, operation_world. apply Hframe. }
  split; [apply Hthis|]. split; [now rewrite Hthis|].
  intros op arguments w1 w2. apply operation_through_delegate.
Qed.

(** ** C10 *)

(** C10: the error an operation makes up for a signal it catches by class
    is built from constants, [new K('K')]: nothing of the error the
    library rejected with enters it, and what the operation rejects with is
    the translation of that constant error. *)
Theorem resignalled_error_constant op arguments w err :
  fst (delegate op arguments w) = Rejected err ->
  (err_class err = Bookshelf_NotFoundError ->
     resignalled_as env (fst (operation op arguments w))
       CommonErrors_NotFoundError "NotFoundError") /\
  (err_class err = Bookshelf_EmptyError -> op <> Op_destroy ->
     resignalled_as env (fst (operation op arguments w))
       CommonErrors_NotFoundError "NotFoundError") /\
  (err_class err = Bookshelf_NoRowsDeletedError -> op = Op_destroy ->
     resignalled_as env (fst (operation op arguments w))
       CommonErrors_NoRowsDeletedError "NoRowsDeletedError") /\
  (err_class err = Bookshelf_NoRowsUpdatedError ->
     op = Op_update \/ op = Op_upsert ->
     resignalled_as env (fst (operation op arguments w))
       CommonErrors_NoRowsUpdatedError "NoRowsUpdatedError").
Proof.
  intros Hrej.
  assert (Hconst : forall p cls message,
            is_CommonError cls = true ->
            p = Rejected (bookshelfToApp (new cls message)) ->
            resignalled_as env p cls message).
  { intros p cls message Hcls ->. split; [reflexivity|].
    intros Hfwd. now rewrite Hfwd. }
  split; [|split; [|split]].
  - intros Hcls. apply Hconst; [reflexivity|].
    now apply operation_rejected_NotFoundError with err.
  - intros Hcls Hop. apply Hconst; [reflexivity|].
    now apply operation_rejected_EmptyError with err.
  - intros Hcls ->. apply Hconst; [reflexivity|].
    now apply destroy_rejected_NoRowsDeletedError with err.
  - intros Hcls Hop. apply Hconst; [reflexivity|].
    now apply operation_rejected_NoRowsUpdatedError with err.
Qed.

End Properties.

(** * The factory on a recording handle, and what an operation forwards *)

Section Observed.

Context {Native Handle : Type} {env : Collaborators Native Handle}.

Implicit Types (op : Operation) (arguments : list (JsValue Native)).

(** ** C7 *)

Lemma BaseModel_installs bookshelf params validations
    (h : Recorded Native Handle) :
  truthy bookshelf = true ->
  initialised env bookshelf ->
  installs (snd (BaseModel (env := recording env) bookshelf params validations h))
    = S (installs h).
Proof.
  intros Hb Hinit. unfold BaseModel. rewrite Hb. simpl.
  destruct h as [h0 log]. simpl.
  destruct (Hinit params h0) as [Hmb _].
  destruct (modelbase bookshelf params h0) as [thrown h1]. simpl in Hmb.
  subst thrown. simpl.
  destruct (Hinit params h1) as [_ Hpl].
  destruct (plugin_pluggable bookshelf h1) as [thrown h2]. simpl in Hpl.
  subst thrown. simpl.
  unfold installs. simpl. rewrite !filter_app, !length_app. simpl. lia.
Qed.

(** C7 (as the code has it): the factory has no initialization check.
    With an initialised handle it always goes through [bookshelf.plugin],
    so on a handle that records these calls every construction adds one
    installation of the extension: [n] constructions on one handle install
    it [n] times. *)
Theorem BaseModel_installs_every_time (n : nat) bookshelf params validations
    (h : Recorded Native Handle) :
  truthy bookshelf = true ->
  initialised env bookshelf ->
  installs (BaseModel_times (env := recording env) n bookshelf params validations h)
    = installs h + n /\
  (forall h0 : Handle,
     snd (BaseModel bookshelf params validations h0) =
       snd (plugin_pluggable bookshelf (snd (modelbase bookshelf params h0)))).
Proof.
  intros Hb Hinit. split.
  - revert h. induction n as [|n IH]; intros h; simpl.
    + lia.
    + rewrite IH, BaseModel_installs by assumption. lia.
  - intros h0. unfold BaseModel. rewrite Hb. simpl.
    destruct (Hinit params h0) as [Hmb _].
    destruct (modelbase bookshelf params h0) as [thrown h1]. simpl in *.
    subst thrown.
    destruct (Hinit params h1) as [_ Hpl].
    destruct (plugin_pluggable bookshelf h1) as [thrown h2]. simpl in *.
    now subst thrown.
Qed.

(** ** C8 *)

(** The promise of an operation is settled by its flag and by the promise
    of its delegate, and by nothing else of the call. *)
Lemma operation_promise_determined op arguments arguments' w w' :
  flag_of op arguments' = flag_of op arguments ->
  fst (delegate op arguments' w') = fst (delegate op arguments w) ->
  fst (operation op arguments' w') = fst (operation op arguments w).
Proof.
  destruct op;
    unfold operation, findWhere, findOne, create, destroy, findAll, findById,
      findOrCreate, update, upsert, delegate, flag_of, bind, ret;
    simpl target; simpl forwarded; simpl flag_index;
    rewrite ?arg_default_findWhere;
    repeat match goal with
    | |- context [apply_static ?s ?a ?x] => destruct (apply_static s a x)
    end;
    simpl; intros -> ->; reflexivity.
Qed.

(** Until the delegate has fulfilled, the flag plays no part. *)
Lemma operation_flag_unread op arguments arguments' w w' :
  (forall v, fst (delegate op arguments w) <> Fulfilled v) ->
  fst (delegate op arguments' w') = fst (delegate op arguments w) ->
  fst (operation op arguments' w') = fst (operation op arguments w).
Proof.
  destruct op;
    unfold operation, findWhere, findOne, create, destroy, findAll, findById,
      findOrCreate, update, upsert, delegate, flag_of, bind, ret;
    simpl target; simpl forwarded; simpl flag_index;
    repeat match goal with
    | |- context [apply_static ?s ?a ?x] => destruct (apply_static s a x)
    end;
    simpl; intros Hv ->;
    match goal with
    | |- context [then_ ?p _] => destruct p as [|v|err]
    end; try reflexivity; exfalso; apply (Hv v); reflexivity.
Qed.

(** C8 (as the code has it): an operation applies its static method in
    the caller's world to a list made of the caller's arguments, and its
    world afterwards is the one that application left.  For every
    operation but [findWhere] the list is the caller's argument list
    itself; [findWhere] passes its three formals, the flag with its
    default in the place of a missing one, which is the argument list only
    of a call that passes filter, options and a flag.  The promise depends
    on the call through the flag and the delegate's promise only, and
    through the delegate's promise alone unless that one fulfilled. *)
Theorem arguments_forwarded op arguments (w : World Native Handle) :
  snd (operation op arguments w) =
    snd (apply_static (target op) (forwarded op arguments) w) /\
  (op <> Op_findWhere -> forwarded op arguments = arguments) /\
  forwarded Op_findWhere arguments =
    [arg arguments 0; arg arguments 1; arg_default arguments 2 JsTrue] /\
  (forall (v_filter v_options : JsValue Native) (flag : bool),
     forwarded Op_findWhere [v_filter; v_options; JsPlain (JBool flag)] =
       [v_filter; v_options; JsPlain (JBool flag)]) /\
  (forall arguments1 arguments2 (w1 w2 : World Native Handle),
     flag_of op arguments1 = flag_of op arguments2 ->
     fst (delegate op arguments1 w1) = fst (delegate op arguments2 w2) ->
     fst (operation op arguments1 w1) = fst (operation op arguments2 w2)) /\
  (forall arguments1 arguments2 (w1 w2 : World Native Handle),
     (forall v, fst (delegate op arguments2 w2) <> Fulfilled v) ->
     fst (delegate op arguments1 w1) = fst (delegate op arguments2 w2) ->
     fst (operation op arguments1 w1) = fst (operation op arguments2 w2)).
Proof.
  split; [apply operation_world|].
  split; [destruct op; intros Hop; try reflexivity; congruence|].
  split; [reflexivity|].
  split; [reflexivity|].
  split; intros arguments1 arguments2 w1 w2.
  - apply operation_promise_determined.
  - apply operation_flag_unread.
Qed.

End Observed.

(** * Runs on the scripted runtime *)

Lemma translate_forwards_CommonErrors : forwards_CommonErrors Scripted.scripted.
Proof.
  intros [cls msg]. destruct cls; simpl; try discriminate; reflexivity.
Qed.

(** With the flag off the caller gets the runtime's own object. *)
Example findOne_native_run :
  fst (operation (env := Scripted.scripted) Op_findOne
         [Scripted.filter; JsUndefined; JsFalse]
         (Scripted.world (Scripted.always (Fulfilled (JsNative Scripted.users)))))
    = Fulfilled (JsNative Scripted.users).
Proof. reflexivity. Qed.

(** A found-nothing [null] stays [null] with the flag on. *)
Example findById_null_run :
  fst (operation (env := Scripted.scripted) Op_findById [JsPlain (JNum 7)]
         (Scripted.world (Scripted.always (Fulfilled JsNull))))
    = Fulfilled JsNull.
Proof. reflexivity. Qed.

(** [findWhere] called on a filter alone applies [findAll] to three values. *)
Example findWhere_forwarded_run :
  delegate (env := Scripted.scripted) Op_findWhere [Scripted.filter]
    (Scripted.world (Scripted.always Pending))
    = apply_static (Collaborators := Scripted.scripted) S_findAll
        [Scripted.filter; JsUndefined; JsTrue]
        (Scripted.world (Scripted.always Pending)).
Proof. reflexivity. Qed.

(** Without a handle nothing is called on the runtime. *)
Example BaseModel_null_run :
  BaseModel (env := recording Scripted.scripted) JsNull JsUndefined JsUndefined
    (Scripted.always Pending, [])
    = (Thrown _ (new CommonErrors_IllegalArgumentError
                   "An initialised instance of bookshelf is required"),
       (Scripted.always Pending, [])).
Proof. reflexivity. Qed.

(** With one, the extension is required and then plugged in. *)
Example BaseModel_recorded_run :
  snd (snd (BaseModel (env := recording Scripted.scripted) Scripted.handle
              JsUndefined JsUndefined (Scripted.always Pending, [])))
    = [Required_modelbase Scripted.handle JsUndefined; Plugged Scripted.handle].
Proof. reflexivity. Qed.

(** With an object that is no bookshelf instance the extension throws when
    it is required, and that is what the factory throws; nothing is
    plugged in. *)
Example BaseModel_empty_object_run :
  BaseModel (env := recording Scripted.scripted) (JsPlain (JObj []))
    JsUndefined JsUndefined (Scripted.always Pending, [])
    = (Thrown _ Scripted.no_Model,
       (Scripted.always Pending,
        [Required_modelbase (JsPlain (JObj [])) JsUndefined])).
Proof. reflexivity. Qed.

Lemma handle_initialised : initialised Scripted.scripted Scripted.handle.
Proof. intros params h. split; reflexivity. Qed.

(** [destroy] against a library that signals an empty result: the caller
    gets the library's own error, where [update] hands out [NotFoundError]. *)
Lemma destroy_EmptyError_run :
  fst (operation (env := Scripted.scripted) Op_destroy [Scripted.options]
         (Scripted.world (Scripted.always (Rejected Scripted.Empty))))
    = Rejected (new Bookshelf_EmptyError "EmptyResponse") /\
  fst (operation (env := Scripted.scripted) Op_update [Scripted.options]
         (Scripted.world (Scripted.always (Rejected Scripted.Empty))))
    = Rejected (new CommonErrors_NotFoundError "NotFoundError").
Proof.
  destruct (destroy_EmptyError_not_resignalled (env := Scripted.scripted)
              [Scripted.options]
              (Scripted.world (Scripted.always (Rejected Scripted.Empty)))
              Scripted.Empty eq_refl eq_refl) as [Hdestroy Hothers].
  split.
  - exact Hdestroy.
  - apply (Hothers Op_update); [discriminate | reflexivity].
Defined.

(** [findById] on a found row, flag left to its default, against a library
    whose [findById] goes through [this.findOne]: the row's data is plain
    already when the operation tries to convert it. *)
Lemma conversion_of_plain_result_run :
  fst (operation (env := Scripted.calling_back) Op_findById [JsPlain (JNum 1)]
         (Scripted.world (Scripted.always (Fulfilled (JsNative Scripted.users)))))
    = Rejected (new TypeError "model.toJSON is not a function") /\
  fst (operation (env := Scripted.calling_back) Op_findById
         [JsPlain (JNum 1); JsUndefined; JsFalse]
         (Scripted.world (Scripted.always (Fulfilled (JsNative Scripted.users)))))
    = Fulfilled (JsPlain (JObj [("id", JNum 1); ("name", JStr "a")])).
Proof.
  split.
  - apply (proj1 (conversion_of_plain_result (env := Scripted.calling_back)
                    Op_findById [JsPlain (JNum 1)]
                    (Scripted.world
                       (Scripted.always (Fulfilled (JsNative Scripted.users))))
                    (JObj [("id", JNum 1); ("name", JStr "a")])
                    eq_refl eq_refl)).
    left. reflexivity.
  - apply (proj2 (conversion_of_plain_result (env := Scripted.calling_back)
                    Op_findById [JsPlain (JNum 1); JsUndefined; JsFalse]
                    (Scripted.world
                       (Scripted.always (Fulfilled (JsNative Scripted.users))))
                    (JObj [("id", JNum 1); ("name", JStr "a")])
                    eq_refl eq_refl)).
    + discriminate.
    + reflexivity.
Defined.


(** C8 (as stated, fails): [findWhere] does not hand on what it was called
    with.  Called on a filter alone it passes three values; called on four
    arguments it passes three, so a library that answers with the number of
    its arguments answers 3 to [findWhere] and 4 to [findAll]. *)
Lemma findWhere_not_verbatim :
  forwarded Op_findWhere [Scripted.filter] =
    [Scripted.filter; JsUndefined; JsTrue] /\
  forwarded Op_findWhere [Scripted.filter] <> [Scripted.filter] /\
  fst (operation (env := Scripted.scripted) Op_findWhere
         [Scripted.filter; Scripted.options; JsFalse; JsTrue]
         (Scripted.world Scripted.by_arity))
    = Fulfilled (JsPlain (JNum 3)) /\
  fst (operation (env := Scripted.scripted) Op_findAll
         [Scripted.filter; Scripted.options; JsFalse; JsTrue]
         (Scripted.world Scripted.by_arity))
    = Fulfilled (JsPlain (JNum 4)).
Proof. repeat split. discriminate. Qed.

Lemma no_rows_signals_run :
  fst (operation (env := Scripted.scripted) Op_destroy [Scripted.options]
         (Scripted.world (Scripted.always (Rejected Scripted.NoRowsDeleted))))
    = Rejected (new CommonErrors_NoRowsDeletedError "NoRowsDeletedError") /\
  fst (operation (env := Scripted.scripted) Op_upsert
         [Scripted.filter; Scripted.filter]
         (Scripted.world (Scripted.always (Rejected Scripted.NoRowsUpdated))))
    = Rejected (new CommonErrors_NoRowsUpdatedError "NoRowsUpdatedError").
Proof.
  split.
  - apply (proj1 (no_rows_signals (env := Scripted.scripted) [Scripted.options]
                    (Scripted.world
                       (Scripted.always (Rejected Scripted.NoRowsDeleted)))
                    Scripted.NoRowsDeleted translate_forwards_CommonErrors));
      reflexivity.
  - apply (proj2 (no_rows_signals (env := Scripted.scripted)
                    [Scripted.filter; Scripted.filter]
                    (Scripted.world
                       (Scripted.always (Rejected Scripted.NoRowsUpdated)))
                    Scripted.NoRowsUpdated translate_forwards_CommonErrors)
                 Op_upsert); [right | |]; reflexivity.
Defined.

Lemma other_errors_translated_run :
  fst (operation (env := Scripted.scripted) Op_create [Scripted.filter]
         (Scripted.world (Scripted.always (Rejected Scripted.ConnectionRefused))))
    = Rejected Scripted.ConnectionRefused.
Proof.
  apply (proj1 (other_errors_translated (env := Scripted.scripted) Op_create
                  [Scripted.filter]
                  (Scripted.world
                     (Scripted.always (Rejected Scripted.ConnectionRefused)))
                  Scripted.ConnectionRefused eq_refl));
    reflexivity.
Defined.

(** Three constructions on one handle: three installations. *)
Lemma BaseModel_installs_every_time_run :
  installs (BaseModel_times (env := recording Scripted.scripted) 3
              Scripted.handle JsUndefined JsUndefined
              (Scripted.always Pending, [])) = 3.
Proof.
  apply (proj1 (BaseModel_installs_every_time (env := Scripted.scripted) 3
                  Scripted.handle JsUndefined JsUndefined
                  (Scripted.always Pending, []) eq_refl
                  (fun _ _ => conj eq_refl eq_refl))).
Defined.

(** C7 (as stated, fails): the second construction on the same handle
    installs the extension again. *)
Lemma BaseModel_twice_installs_twice :
  installs (BaseModel_times (env := recording Scripted.scripted) 1
              Scripted.handle JsUndefined JsUndefined
              (Scripted.always Pending, [])) = 1 /\
  installs (BaseModel_times (env := recording Scripted.scripted) 2
              Scripted.handle JsUndefined JsUndefined
              (Scripted.always Pending, [])) = 2 /\
  installs (BaseModel_times (env := recording Scripted.scripted) 2
              Scripted.handle JsUndefined JsUndefined
              (Scripted.always Pending, []))
    <> installs (BaseModel_times (env := recording Scripted.scripted) 1
                   Scripted.handle JsUndefined JsUndefined
                   (Scripted.always Pending, [])).
Proof. repeat split. discriminate. Qed.

Lemma definition_unchanged_run :
  this (run_calls (env := Scripted.scripted)
          [(Op_create, [Scripted.filter]); (Op_destroy, [Scripted.options])]
          (Scripted.world (Scripted.always (Fulfilled (JsNative Scripted.users)))))
    = Scripted.model.
Proof.
  apply (proj1 (definition_unchanged (env := Scripted.scripted)
                  [(Op_create, [Scripted.filter]); (Op_destroy, [Scripted.options])]
                  (Scripted.world
                     (Scripted.always (Fulfilled (JsNative Scripted.users))))
                  (fun _ _ _ => eq_refl))).
Defined.

Lemma resignalled_error_constant_run :
  fst (operation (env := Scripted.scripted) Op_findById
         [JsPlain (JNum 7)]
         (Scripted.world (Scripted.always (Rejected Scripted.NotFound))))
    = Rejected (new CommonErrors_NotFoundError "NotFoundError").
Proof.
  apply (proj1 (proj1 (resignalled_error_constant (env := Scripted.scripted)
                         Op_findById [JsPlain (JNum 7)]
                         (Scripted.world
                            (Scripted.always (Rejected Scripted.NotFound)))
                         Scripted.NotFound eq_refl) eq_refl)).
Defined.

(** * Further properties of the operations *)

Section Outcomes.

Context {Native Handle : Type} {env : Collaborators Native Handle}.

Implicit Types (op : Operation) (arguments : list (JsValue Native)).
Implicit Types (w : World Native Handle) (v : JsValue Native) (err : JsError).

Ltac chain op :=
  destruct op;
  unfold operation, findWhere, findOne, create, destroy, findAll, findById,
    findOrCreate, update, upsert, delegate, flag_of, bind, ret in *;
  simpl target in *; simpl forwarded in *; simpl flag_index in *;
  match goal with
  | |- context [apply_static ?s ?a ?w] => destruct (apply_static s a w) as [p w']
  end;
  simpl fst in *; simpl snd in *.

(** What comes out of a rejected delegate has been through the translation. *)
Lemma operation_rejected_translated op arguments w err :
  fst (delegate op arguments w) = Rejected err ->
  exists err0, fst (operation op arguments w) = Rejected (bookshelfToApp err0).
Proof.
  destruct err as [cls msg].
  chain op; intros ->; destruct cls; simpl; eexists; reflexivity.
Qed.

(** After a fulfilled delegate with the flag on: [null], plain data, or the
    translated [TypeError] of the failed [toJSON] call. *)
Lemma operation_converted op arguments w v :
  fst (delegate op arguments w) = Fulfilled v ->
  truthy (flag_of op arguments) = true ->
  fst (operation op arguments w) =
    match v with
    | JsNative o => Fulfilled (JsPlain (toJSON o))
    | _ => if truthy v
           then Rejected (bookshelfToApp
                            (new TypeError "model.toJSON is not a function"))
           else Fulfilled JsNull
    end.
Proof.
  intros Hv Hflag. rewrite (operation_fulfilled _ _ _ _ Hv).
  unfold convert. rewrite Hflag. simpl negb. cbv iota.
  destruct v as [|j|o]; [reflexivity | | reflexivity].
  destruct (truthy (JsPlain j)); reflexivity.
Qed.

(** X3: A falsy result of the library, whichever ([null], [undefined], [0], the
    empty string, [false]), comes out as [null] when the flag is on. *)
Theorem falsy_result_becomes_null op arguments w v :
  fst (delegate op arguments w) = Fulfilled v ->
  truthy (flag_of op arguments) = true ->
  truthy v = false ->
  fst (operation op arguments w) = Fulfilled JsNull.
Proof.
  intros Hv Hflag Hfalsy. rewrite (operation_converted _ _ _ _ Hv Hflag).
  destruct v as [|j|o]; [reflexivity | now rewrite Hfalsy | discriminate].
Qed.

(** X4: A truthy result that is no object of the runtime (a number, a string,
    plain data) has no [toJSON]: with the flag on the call throws inside the
    [then] handler, the class catches let the [TypeError] pass and the
    operation rejects with its translation. *)
Theorem plain_result_rejected op arguments w (j : Json) :
  fst (delegate op arguments w) = Fulfilled (JsPlain j) ->
  truthy (flag_of op arguments) = true ->
  truthy (JsPlain j : JsValue Native) = true ->
  fst (operation op arguments w) =
    Rejected (bookshelfToApp (new TypeError "model.toJSON is not a function")).
Proof.
  intros Hv Hflag Htruthy. rewrite (operation_converted _ _ _ _ Hv Hflag).
  now rewrite Htruthy.
Qed.

(** X1: With the flag on, an operation never hands out an object of the
    runtime, and never [undefined]: what it fulfils with is plain data. *)
Theorem converted_result_is_plain op arguments w v :
  truthy (flag_of op arguments) = true ->
  fst (operation op arguments w) = Fulfilled v ->
  exists j, v = JsPlain j.
Proof.
  intros Hflag Hres.
  destruct (fst (delegate op arguments w)) as [|v0|err] eqn:Hd.
  - rewrite (operation_pending _ _ _ Hd) in Hres. discriminate.
  - rewrite (operation_converted _ _ _ _ Hd Hflag) in Hres.
    destruct v0 as [|j|o].
    + injection Hres as <-. now exists JNull.
    + destruct (truthy (JsPlain j)); [discriminate|].
      injection Hres as <-. now exists JNull.
    + injection Hres as <-. now exists (toJSON o).
  - destruct (operation_rejected _ _ _ _ Hd) as [err' Herr].
    rewrite Herr in Hres. discriminate.
Qed.

(** X2: Whatever an operation rejects with has gone through [bookshelfToApp]:
    the library's errors, the errors made up for its signals and the
    [TypeError] of a failed conversion alike. *)
Theorem rejections_are_translated op arguments w err :
  fst (operation op arguments w) = Rejected err ->
  exists err0, err = bookshelfToApp err0.
Proof.
  intros Hres.
  destruct (fst (delegate op arguments w)) as [|v0|err1] eqn:Hd.
  - rewrite (operation_pending _ _ _ Hd) in Hres. discriminate.
  - rewrite (operation_fulfilled _ _ _ _ Hd) in Hres.
    destruct (convert_settles (flag_of op arguments) v0) as [[v' Hs] | Hs];
      rewrite Hs in Hres; simpl in Hres.
    + discriminate.
    + injection Hres as <-. eexists. reflexivity.
  - destruct (operation_rejected_translated _ _ _ _ Hd) as [err0 Herr].
    rewrite Herr in Hres. injection Hres as <-. now exists err0.
Qed.

(** X5: The flag is a defaulted formal: left out or [undefined] it is [true]
    and the result goes through the conversion; [null] is a value like any
    other, it is falsy and the caller gets what the delegate fulfilled
    with, as it is. *)
Theorem flag_default op arguments w v :
  fst (delegate op arguments w) = Fulfilled v ->
  (arg arguments (flag_index op) = JsUndefined ->
     fst (operation op arguments w) =
       match v with
       | JsNative o => Fulfilled (JsPlain (toJSON o))
       | _ => if truthy v
              then Rejected (bookshelfToApp
                               (new TypeError "model.toJSON is not a function"))
              else Fulfilled JsNull
       end) /\
  (arg arguments (flag_index op) = JsNull ->
     fst (operation op arguments w) = Fulfilled v).
Proof.
  intros Hv. split; intros Hflag.
  - apply (operation_converted _ _ _ _ Hv).
    unfold flag_of, arg_default. now rewrite Hflag.
  - rewrite (operation_fulfilled _ _ _ _ Hv).
    unfold flag_of, arg_default. now rewrite Hflag.
Qed.

(** X6: A "no rows" signal at an operation that has no catch for it is not
    made into an application error by the operation: it goes to the
    translation as the library raised it. *)
Theorem uncaught_signals_translated op arguments w err :
  fst (delegate op arguments w) = Rejected err ->
  (err_class err = Bookshelf_NoRowsDeletedError -> op <> Op_destroy ->
     fst (operation op arguments w) = Rejected (bookshelfToApp err)) /\
  (err_class err = Bookshelf_NoRowsUpdatedError ->
     op <> Op_update -> op <> Op_upsert ->
     fst (operation op arguments w) = Rejected (bookshelfToApp err)).
Proof.
  destruct err as [cls msg]. simpl. intros Hrej.
  split; revert Hrej; chain op; intros -> ->; intros; try congruence;
    reflexivity.
Qed.

(** X7: An operation is pending exactly as long as its delegate is: it adds
    neither a wait nor a time limit of its own. *)
Theorem pending_iff_delegate_pending op arguments w :
  fst (operation op arguments w) = Pending <->
  fst (delegate op arguments w) = Pending.
Proof.
  split; [|apply operation_pending].
  intros Hres.
  destruct (fst (delegate op arguments w)) as [|v0|err1] eqn:Hd.
  - reflexivity.
  - rewrite (operation_fulfilled _ _ _ _ Hd) in Hres.
    destruct (convert_settles (flag_of op arguments) v0) as [[v' Hs] | Hs];
      rewrite Hs in Hres; discriminate.
  - destruct (operation_rejected _ _ _ _ Hd) as [err' Herr].
    rewrite Herr in Hres. discriminate.
Qed.

End Outcomes.

(** * Further properties of calls and of the factory *)

Section Calls.

Context {Native Handle : Type} {env : Collaborators Native Handle}.

Implicit Types (op : Operation) (arguments : list (JsValue Native)).

(** X9: [findWhere] names three formals and passes on those: what a caller
    adds after the flag is dropped, where [findAll] called directly hands
    the whole list to the library. *)
Theorem findWhere_drops_extra_arguments (a b c : JsValue Native)
    (extra : list (JsValue Native)) (w : World Native Handle) :
  findWhere (a :: b :: c :: extra) w = findWhere [a; b; c] w /\
  snd (findWhere (a :: b :: c :: extra) w) =
    snd (apply_static S_findAll [a; b; arg_default [a; b; c] 2 JsTrue] w) /\
  snd (findAll (a :: b :: c :: extra) w) =
    snd (apply_static S_findAll (a :: b :: c :: extra) w).
Proof.
  split; [reflexivity|]. split.
  - exact (operation_world Op_findWhere (a :: b :: c :: extra) w).
  - exact (operation_world Op_findAll (a :: b :: c :: extra) w).
Qed.

(** X10: [findWhere] and [findAll] called on the same arguments, whatever their
    number: the promises agree as soon as the library answers the padded
    list [findWhere] passes as it answers the list itself. *)
Theorem findWhere_as_findAll arguments (w : World Native Handle) :
  fst (apply_static S_findAll (forwarded Op_findWhere arguments) w) =
    fst (apply_static S_findAll arguments w) ->
  fst (findWhere arguments w) = fst (findAll arguments w).
Proof.
  intros Hsame.
  apply (operation_promise_determined (env := env) Op_findAll
           arguments (forwarded Op_findWhere arguments) w w).
  - unfold flag_of. simpl flag_index. simpl forwarded.
    unfold arg_default at 1. simpl.
    unfold arg_default. destruct (arg arguments 2); reflexivity.
  - exact Hsame.
Qed.

(** X11: On a handle that records the factory's calls: a falsy handle is
    refused before any call; with a truthy one the extension is required
    first, with the handle and [params], and plugged in afterwards only if
    that call returned; if it throws, the factory throws the same error
    and the extension is never plugged in. *)
Theorem BaseModel_calls_in_order (bookshelf params validations : JsValue Native)
    (h : Recorded Native Handle) :
  snd (snd (BaseModel (env := recording env) bookshelf params validations h)) =
    snd h ++
    (if truthy bookshelf
     then Required_modelbase bookshelf params ::
          match fst (modelbase bookshelf params (fst h)) with
          | Some _ => []
          | None => [Plugged bookshelf]
          end
     else []) /\
  (forall err, truthy bookshelf = true ->
     fst (modelbase bookshelf params (fst h)) = Some err ->
     fst (BaseModel (env := recording env) bookshelf params validations h) =
       Thrown _ err).
Proof.
  unfold BaseModel. destruct h as [h0 log]. simpl.
  destruct (truthy bookshelf); simpl.
  - destruct (modelbase bookshelf params h0) as [[err1|] h1]; simpl.
    + split; [reflexivity|]. now intros err _ [= ->].
    + destruct (plugin_pluggable bookshelf h1) as [[err2|] h2]; simpl;
        (split; [now rewrite <- app_assoc | discriminate]).
  - split; [now rewrite app_nil_r | discriminate].
Qed.

End Calls.

(** * The earlier variant against the current one *)

Section Variants.

Context {Native Handle : Type} {env : Collaborators Native Handle}.

Implicit Types (arguments : list (JsValue Native)) (w : World Native Handle).

(** X13: In the earlier variant [findAll] reads its flag from the second
    argument, where the library's [findAll] reads its options: on
    [findAll(filter, options, false)] with an options object it converts,
    and the current variant does not. *)
Theorem Legacy_findAll_flag_is_second_argument arguments w (o : Native) :
  fst (apply_static S_findAll arguments w) = Fulfilled (JsNative o) ->
  fst (Legacy.findAll arguments w) =
    Fulfilled (if truthy (arg_default arguments 1 JsTrue)
               then JsPlain (toJSON o) else JsNative o) /\
  (forall v_filter members,
     arguments = [v_filter; JsPlain (JObj members); JsFalse] ->
     fst (Legacy.findAll arguments w) = Fulfilled (JsPlain (toJSON o)) /\
     fst (findAll arguments w) = Fulfilled (JsNative o)).
Proof.
  intros Hv.
  assert (Hlegacy : fst (Legacy.findAll arguments w) =
            Fulfilled (if truthy (arg_default arguments 1 JsTrue)
                       then JsPlain (toJSON o) else JsNative o)).
  { unfold Legacy.findAll, bind, ret.
    destruct (apply_static S_findAll arguments w) as [p w']. simpl in *. subst p.
    simpl then_. unfold convert.
    destruct (truthy (arg_default arguments 1 JsTrue)); reflexivity. }
  split; [exact Hlegacy|].
  intros v_filter members ->. split.
  - rewrite Hlegacy. reflexivity.
  - unfold findAll, bind, ret.
    destruct (apply_static S_findAll _ w) as [p w']. simpl in *. subst p.
    reflexivity.
Qed.

(** X14: The two variants are the same code for [findOne], [create], [destroy],
    [findById], [findOrCreate] and [update]; [findAll] and [upsert] agree on
    every call whose two flag positions hold the same value, a call with
    the data argument alone for one; the earlier factory is the current one
    called without [params]. *)
Theorem variants_agree arguments w :
  Legacy.findOne arguments w = findOne arguments w /\
  Legacy.create arguments w = create arguments w /\
  Legacy.destroy arguments w = destroy arguments w /\
  Legacy.findById arguments w = findById arguments w /\
  Legacy.findOrCreate arguments w = findOrCreate arguments w /\
  Legacy.update arguments w = update arguments w /\
  (arg_default arguments 1 JsTrue = arg_default arguments 2 JsTrue ->
     Legacy.findAll arguments w = findAll arguments w) /\
  (arg_default arguments 2 JsTrue = arg_default arguments 3 JsTrue ->
     Legacy.upsert arguments w = upsert arguments w) /\
  (forall v_data, Legacy.findAll [v_data] w = findAll [v_data] w /\
                  Legacy.upsert [v_data] w = upsert [v_data] w) /\
  (forall bookshelf validations (h : Handle),
     Legacy.BaseModel bookshelf validations h =
       BaseModel bookshelf JsUndefined validations h).
Proof.
  repeat (split; [reflexivity|]).
  split; [intros Hflag; unfold Legacy.findAll, findAll; now rewrite Hflag|].
  split; [intros Hflag; unfold Legacy.upsert, upsert; now rewrite Hflag|].
  split; [intros v_data; split; reflexivity | reflexivity].
Qed.

End Variants.

(** * Further runs on the scripted runtime *)

Lemma falsy_result_becomes_null_run :
  fst (operation (env := Scripted.scripted) Op_findOne [Scripted.filter]
         (Scripted.world (Scripted.always (Fulfilled (JsPlain (JNum 0))))))
    = Fulfilled JsNull.
Proof.
  apply (falsy_result_becomes_null (env := Scripted.scripted) Op_findOne
           [Scripted.filter]
           (Scripted.world (Scripted.always (Fulfilled (JsPlain (JNum 0)))))
           (JsPlain (JNum 0)) eq_refl eq_refl eq_refl).
Defined.

Lemma plain_result_rejected_run :
  fst (operation (env := Scripted.scripted) Op_create [Scripted.filter]
         (Scripted.world (Scripted.always (Fulfilled Scripted.filter))))
    = Rejected (new TypeError "model.toJSON is not a function").
Proof.
  apply (plain_result_rejected (env := Scripted.scripted) Op_create
           [Scripted.filter]
           (Scripted.world (Scripted.always (Fulfilled Scripted.filter)))
           (JObj [("name", JStr "a")]) eq_refl eq_refl eq_refl).
Defined.

Lemma converted_result_is_plain_run :
  exists j, JsNull (Native := Scripted.Row) = JsPlain j.
Proof.
  apply (converted_result_is_plain (env := Scripted.scripted) Op_findById
           [JsPlain (JNum 7)]
           (Scripted.world (Scripted.always (Fulfilled JsUndefined)))
           JsNull eq_refl eq_refl).
Defined.

Lemma rejections_are_translated_run :
  exists err0,
    new CommonErrors_NoRowsDeletedError "NoRowsDeletedError" =
      Scripted.translate err0.
Proof.
  apply (rejections_are_translated (env := Scripted.scripted) Op_destroy
           [Scripted.options]
           (Scripted.world (Scripted.always (Rejected Scripted.NoRowsDeleted)))
           (new CommonErrors_NoRowsDeletedError "NoRowsDeletedError") eq_refl).
Defined.

Lemma flag_default_run :
  fst (operation (env := Scripted.scripted) Op_findOne
         [Scripted.filter; Scripted.options]
         (Scripted.world (Scripted.always (Fulfilled (JsNative Scripted.users)))))
    = Fulfilled (JsPlain (JObj [("id", JNum 1); ("name", JStr "a")])) /\
  fst (operation (env := Scripted.scripted) Op_findOne
         [Scripted.filter; Scripted.options; JsNull]
         (Scripted.world (Scripted.always (Fulfilled (JsNative Scripted.users)))))
    = Fulfilled (JsNative Scripted.users).
Proof.
  split.
  - apply (proj1 (flag_default (env := Scripted.scripted) Op_findOne
                    [Scripted.filter; Scripted.options]
                    (Scripted.world
                       (Scripted.always (Fulfilled (JsNative Scripted.users))))
                    (JsNative Scripted.users) eq_refl) eq_refl).
  - apply (proj2 (flag_default (env := Scripted.scripted) Op_findOne
                    [Scripted.filter; Scripted.options; JsNull]
                    (Scripted.world
                       (Scripted.always (Fulfilled (JsNative Scripted.users))))
                    (JsNative Scripted.users) eq_refl) eq_refl).
Defined.

Lemma uncaught_signals_translated_run :
  fst (operation (env := Scripted.scripted) Op_findOne [Scripted.filter]
         (Scripted.world (Scripted.always (Rejected Scripted.NoRowsUpdated))))
    = Rejected Scripted.NoRowsUpdated.
Proof.
  apply (proj2 (uncaught_signals_translated (env := Scripted.scripted)
                  Op_findOne [Scripted.filter]
                  (Scripted.world
                     (Scripted.always (Rejected Scripted.NoRowsUpdated)))
                  Scripted.NoRowsUpdated eq_refl) eq_refl);
    discriminate.
Defined.

Lemma findWhere_as_findAll_run :
  fst (findWhere (env := Scripted.scripted) [Scripted.filter]
         (Scripted.world (Scripted.always (Fulfilled (JsNative Scripted.users)))))
    = fst (findAll (env := Scripted.scripted) [Scripted.filter]
             (Scripted.world
                (Scripted.always (Fulfilled (JsNative Scripted.users))))).
Proof.
  apply (findWhere_as_findAll (env := Scripted.scripted) [Scripted.filter]
           (Scripted.world
              (Scripted.always (Fulfilled (JsNative Scripted.users))))
           eq_refl).
Defined.

Lemma Legacy_findAll_flag_run :
  fst (Legacy.findAll (env := Scripted.scripted)
         [Scripted.filter; Scripted.options; JsFalse]
         (Scripted.world (Scripted.always (Fulfilled (JsNative Scripted.users)))))
    = Fulfilled (JsPlain (JObj [("id", JNum 1); ("name", JStr "a")])) /\
  fst (findAll (env := Scripted.scripted)
         [Scripted.filter; Scripted.options; JsFalse]
         (Scripted.world (Scripted.always (Fulfilled (JsNative Scripted.users)))))
    = Fulfilled (JsNative Scripted.users).
Proof.
  apply (proj2 (Legacy_findAll_flag_is_second_argument (env := Scripted.scripted)
                  [Scripted.filter; Scripted.options; JsFalse]
                  (Scripted.world
                     (Scripted.always (Fulfilled (JsNative Scripted.users))))
                  Scripted.users eq_refl)
           Scripted.filter [("id", JNum 1)] eq_refl).
Defined.
